(** * fetch_creds: credentials read from a csv file and handed to client libraries

    A shallow embedding of [fetch_creds.py].  The five functions of the
    module are embedded statement by statement in a state-and-exception
    monad; the libraries they call (pandas, boto, cx_Oracle and
    sqlalchemy) are not part of the module and are modelled at their
    interface, each model saying what it covers. *)

From Stdlib Require Import String Ascii List ZArith Bool Lia.
Import ListNotations.
Local Open Scope string_scope.

(* ================================================================== *)
(** ** Python values, exceptions and the effect monad *)
(* ================================================================== *)

(** The objects the module handles: what a cell of a pandas column can
    hold (a [str], a numpy integer, a numpy float, a numpy bool, the float
    NaN) and tuples of those.  A float is kept as the decimal literal it
    was parsed from. *)
#[warnings="-register-all"]
Inductive value : Type :=
| VStr (s : string)
| VInt (z : Z)
| VFloat (literal : string)
| VBool (b : bool)
| VNaN
| VTuple (items : list value).

(** The exceptions that can leave the module.  [KeyError] carries the key
    that was not found, a column label or a row label.  [LibraryError]
    stands for whatever a client library raises when the remote service
    refuses. *)
Inductive exn : Type :=
| IOError
| EmptyDataError
| ParserError
| KeyError (key : value)
| IndentationError
| TypeError
| ValueError
| LibraryError (code : nat).

Inductive result (A : Type) : Type :=
| Ok (a : A)
| Raise (e : exn).
Arguments Ok {A} a.
Arguments Raise {A} e.

Inductive calling_format : Type :=
| OrdinaryCallingFormat
| SubdomainCallingFormat.

(** What [cx_Oracle.makedsn] is given; building it needs no connection. *)
Record dsn : Type := Dsn { dsn_host : value; dsn_port : value; dsn_sid : value }.

(** Calls that leave the process: the read of the credentials file and the
    calls into the client libraries. *)
Inductive action : Type :=
| ReadCsv (path : string)
| ConnectS3 (key secret : value) (cf : calling_format)
| GetBucket (name : string)
| OracleConnect (user passwd : value) (d : dsn)
| OpenCursor
| CreateEngine (uri : string).

(** Everything but the file read goes to a client library. *)
Definition is_network (a : action) : bool :=
  match a with
  | ReadCsv _ => false
  | _ => true
  end.

(** Objects built by the client libraries; [oid] is the identity of the
    Python object. *)
Inductive handle : Type :=
| S3Connection (oid : nat) (key secret : value) (cf : calling_format)
| Bucket (oid : nat) (conn : handle) (name : string)
| OracleConnection (oid : nat) (user passwd : value) (d : dsn)
| OracleCursor (oid : nat) (conn : handle)
| Engine (oid : nat) (uri : string).

Definition oid_of (h : handle) : nat :=
  match h with
  | S3Connection n _ _ _ => n
  | Bucket n _ _ => n
  | OracleConnection n _ _ _ => n
  | OracleCursor n _ => n
  | Engine n _ => n
  end.

(** The world a call runs in: the files on disk, the answer of the remote
    services to each library call ([None]: accepted), the calls made so
    far and the next free object identity.  The module itself has no
    variable that outlives a call, so nothing else is threaded. *)
Record world : Type := World {
  files : string -> option string;
  service : action -> option exn;
  log : list action;
  next_oid : nat
}.

Definition M (A : Type) : Type := world -> result A * world.

Definition ret {A} (a : A) : M A := fun w => (Ok a, w).

Definition raise {A} (e : exn) : M A := fun w => (Raise e, w).

Definition bind {A B} (m : M A) (k : A -> M B) : M B :=
  fun w =>
    match m w with
    | (Ok a, w') => k a w'
    | (Raise e, w') => (Raise e, w')
    end.

Notation "x <- m ;; k" := (bind m (fun x => k))
  (at level 61, m at next level, right associativity).

Definition lift {A} (r : result A) : M A := fun w => (r, w).

Definition record (a : action) (w : world) : world :=
  World (files w) (service w) (log w ++ [a]) (next_oid w).

(** A call into a client library: it is recorded, the service answers, and
    on success a new object is built. *)
Definition library_call (a : action) (build : nat -> handle) : M handle :=
  fun w =>
    let w' := record a w in
    match service w a with
    | Some e => (Raise e, w')
    | None =>
        (Ok (build (next_oid w)),
         World (files w') (service w') (log w') (S (next_oid w')))
    end.

(* ================================================================== *)
(** ** pandas.read_csv *)
(* ================================================================== *)

(** pandas is not part of the module.  This is a model of
    [pandas.read_csv(path)] of pandas 2 with every option at its default.
    The first record is the header, lines of nothing but blanks and tabs
    are skipped, fields are separated by commas, a row shorter than the
    header is filled with missing values, a row longer than the header is
    a tokenizing error, and each column is converted as a whole to the
    narrowest of int64, uint64, float64, bool and object that fits all of
    its cells.

    The model is meant for the files [Pandas.covered] accepts: printable
    ASCII characters other than the double quote, tabs, and LF line ends
    (no quoted fields, no CR, no byte order mark, no other bytes).  A
    first data row longer than the header, which pandas takes for row
    labels, is not covered either.  Statements that depend on the contents
    of a file assume [reads_as] or [Pandas.covered]. *)
Module Pandas.

Fixpoint split_on (sep : ascii) (s : string) : list string :=
  match s with
  | EmptyString => [EmptyString]
  | String c s' =>
      if Ascii.eqb c sep then EmptyString :: split_on sep s'
      else match split_on sep s' with
           | [] => [String c EmptyString]
           | f :: fs => String c f :: fs
           end
  end.

Definition newline : ascii := "010"%char.
Definition comma : ascii := ","%char.

Definition is_space (c : ascii) : bool :=
  Ascii.eqb c " "%char || Ascii.eqb c "009"%char.

(** A line of nothing but blanks and tabs is skipped. *)
Fixpoint blank (l : string) : bool :=
  match l with
  | EmptyString => true
  | String c l' => is_space c && blank l'
  end.

Definition nonblank (l : string) : bool := negb (blank l).

(** The characters of the files the model is meant for. *)
Definition covered_char (c : ascii) : bool :=
  let n := nat_of_ascii c in
  (Nat.eqb n 10 || Nat.eqb n 9 || (Nat.leb 32 n && Nat.leb n 126))
  && negb (Nat.eqb n 34).

Fixpoint covered (text : string) : bool :=
  match text with
  | EmptyString => true
  | String c text' => covered_char c && covered text'
  end.

(** The records of a file: one list of fields per non-blank line. *)
Definition tokenize (text : string) : list (list string) :=
  map (split_on comma) (filter nonblank (split_on newline text)).

(** *** Lexical classes of a field *)

(** The strings read as a missing value ([na_values], default list). *)
Definition na_values : list string :=
  [""; "#N/A"; "#N/A N/A"; "#NA"; "-1.#IND"; "-1.#QNAN"; "-NaN"; "-nan";
   "1.#IND"; "1.#QNAN"; "<NA>"; "N/A"; "NA"; "NULL"; "NaN"; "None";
   "n/a"; "nan"; "null"].

Definition is_na (c : string) : bool := existsb (String.eqb c) na_values.

Fixpoint lstrip (s : string) : string :=
  match s with
  | String c s' => if is_space c then lstrip s' else s
  | EmptyString => EmptyString
  end.

Fixpoint rstrip (s : string) : string :=
  match s with
  | EmptyString => EmptyString
  | String c s' =>
      match rstrip s' with
      | EmptyString => if is_space c then EmptyString else String c EmptyString
      | r => String c r
      end
  end.

Definition strip (s : string) : string := rstrip (lstrip s).

Definition digit (c : ascii) : option Z :=
  let n := Z.of_nat (nat_of_ascii c) in
  if (48 <=? n)%Z && (n <=? 57)%Z then Some (n - 48)%Z else None.

(** The value of a non-empty run of decimal digits. *)
Fixpoint digits_from (acc : Z) (s : string) : option Z :=
  match s with
  | EmptyString => Some acc
  | String c s' =>
      match digit c with
      | Some d => digits_from (10 * acc + d)%Z s'
      | None => None
      end
  end.

Definition digits (s : string) : option Z :=
  match s with
  | EmptyString => None
  | _ => digits_from 0%Z s
  end.

Definition in_int64 (z : Z) : bool :=
  ((- 2 ^ 63 <=? z) && (z <? 2 ^ 63))%Z.

Definition in_uint64 (z : Z) : bool :=
  ((0 <=? z) && (z <? 2 ^ 64))%Z.

Definition drop_sign (s : string) : string :=
  match s with
  | String c s' =>
      if Ascii.eqb c "-"%char || Ascii.eqb c "+"%char then s' else s
  | EmptyString => EmptyString
  end.

Definition negative (s : string) : bool :=
  match s with
  | String c _ => Ascii.eqb c "-"%char
  | EmptyString => false
  end.

(** An integer literal: optional sign and digits, blanks around it
    ignored. *)
Definition integer_literal (c : string) : option Z :=
  match digits (drop_sign (strip c)) with
  | Some z => Some (if negative (strip c) then (- z)%Z else z)
  | None => None
  end.

(** An integer literal that fits int64. *)
Definition int_literal (c : string) : option Z :=
  match integer_literal c with
  | Some z => if in_int64 z then Some z else None
  | None => None
  end.

Fixpoint count_digits (s : string) : nat :=
  match s with
  | String c s' =>
      match digit c with
      | Some _ => S (count_digits s')
      | None => 0
      end
  | EmptyString => 0
  end.

Fixpoint drop_digits (s : string) : string :=
  match s with
  | String c s' =>
      match digit c with
      | Some _ => drop_digits s'
      | None => s
      end
  | EmptyString => EmptyString
  end.

(** A decimal literal: sign, digits with an optional point, optional
    exponent, blanks around it ignored. *)
Definition decimal_literal (c : string) : bool :=
  let s := drop_sign (strip c) in
  let r1 := drop_digits s in
  let n1 := count_digits s in
  let fraction :=
    match r1 with
    | String p r => if Ascii.eqb p "."%char then Some r else None
    | EmptyString => None
    end in
  let n2 := match fraction with Some r => count_digits r | None => 0 end in
  let r2 := match fraction with Some r => drop_digits r | None => r1 end in
  if Nat.eqb (n1 + n2) 0 then false
  else match r2 with
       | EmptyString => true
       | String e r =>
           (Ascii.eqb e "e"%char || Ascii.eqb e "E"%char)
           && negb (Nat.eqb (count_digits (drop_sign r)) 0)
           && (drop_digits (drop_sign r) =? "")
       end.

Definition lower (c : ascii) : ascii :=
  let n := nat_of_ascii c in
  if Nat.leb 65 n && Nat.leb n 90 then ascii_of_nat (n + 32) else c.

Fixpoint lowercase (s : string) : string :=
  match s with
  | EmptyString => EmptyString
  | String c s' => String (lower c) (lowercase s')
  end.

(** [inf] and [Infinity], signed or not, in any letter case. *)
Definition inf_literal (c : string) : bool :=
  (lowercase (drop_sign c) =? "inf") || (lowercase (drop_sign c) =? "infinity").

(** What is read as a float; an integer literal is one too. *)
Definition float_literal (c : string) : bool :=
  decimal_literal c || inf_literal c.

(** [true] and [false] in any letter case. *)
Definition bool_literal (c : string) : option bool :=
  if lowercase c =? "true" then Some true
  else if lowercase c =? "false" then Some false
  else None.

Definition is_some {A} (o : option A) : bool :=
  match o with Some _ => true | None => false end.

(** *** Column conversion *)

Inductive dtype : Type := Int64 | UInt64 | Float64 | BoolT | ObjectT.

(** The type of a column is inferred from all of its cells.  Integers
    that do not all fit int64 make a uint64 column when there is no
    missing cell and all of them fit uint64, and an object column of
    strings otherwise. *)
Definition infer_dtype (cells : list string) : dtype :=
  let present := filter (fun c => negb (is_na c)) cells in
  let complete := Nat.eqb (length present) (length cells) in
  if forallb (fun c => is_some (int_literal c)) present then
    if complete then Int64 else Float64
  else if forallb (fun c => is_some (integer_literal c)) present then
    if complete
       && forallb (fun c => match integer_literal c with
                            | Some z => in_uint64 z
                            | None => false
                            end) present
    then UInt64 else ObjectT
  else if forallb float_literal present then Float64
  else if forallb (fun c => is_some (bool_literal c)) present then BoolT
  else ObjectT.

Definition convert (t : dtype) (c : string) : value :=
  if is_na c then VNaN
  else match t with
       | Int64 => match int_literal c with Some z => VInt z | None => VNaN end
       | UInt64 =>
           match integer_literal c with Some z => VInt z | None => VNaN end
       | Float64 => VFloat (strip c)
       | BoolT => match bool_literal c with Some b => VBool b | None => VNaN end
       | ObjectT => VStr c
       end.

Definition convert_column (cells : list string) : list value :=
  map (convert (infer_dtype cells)) cells.

(** *** Data frames *)

(** A column label with the converted cells of the column, in file order.
    A label repeated in the header is renamed by pandas ([X], [X.1], ...),
    so that a lookup by the plain label finds its first column. *)
Definition DataFrame : Type := list (string * list value).

Definition Series : Type := list value.

Definition raw_column (rows : list (list string)) (i : nat) : list string :=
  map (fun r => nth i r "") rows.

Definition frame_of (header : list string) (rows : list (list string))
  : DataFrame :=
  map (fun il => (snd il, convert_column (raw_column rows (fst il))))
      (combine (seq 0 (length header)) header).

Definition too_long (header : list string) (r : list string) : bool :=
  Nat.ltb (length header) (length r).

Definition parse (text : string) : result DataFrame :=
  match tokenize text with
  | [] => Raise EmptyDataError
  | header :: rows =>
      if existsb (too_long header) rows then Raise ParserError
      else Ok (frame_of header rows)
  end.

(** [pandas.read_csv(path)] *)
Definition read_csv (path : string) : M DataFrame :=
  fun w =>
    let w' := record (ReadCsv path) w in
    match files w path with
    | None => (Raise IOError, w')
    | Some text => (parse text, w')
    end.

(** [df[label]] *)
Fixpoint getitem (df : DataFrame) (label : string) : result Series :=
  match df with
  | [] => Raise (KeyError (VStr label))
  | (l, col) :: df' => if l =? label then Ok col else getitem df' label
  end.

(** [series[0]]: the row labelled 0, the first row; a column without
    rows has no such label. *)
Definition first (s : Series) : result value :=
  match s with
  | [] => Raise (KeyError (VInt 0))
  | v :: _ => Ok v
  end.

(** [df[label][0]] *)
Definition cell0 (df : DataFrame) (label : string) : M value :=
  lift match getitem df label with
       | Ok s => first s
       | Raise e => Raise e
       end.

End Pandas.

(* ================================================================== *)
(** ** boto, cx_Oracle and sqlalchemy *)
(* ================================================================== *)

Module boto.

Definition connect_s3 (key secret : value) (cf : calling_format) : M handle :=
  library_call (ConnectS3 key secret cf) (fun n => S3Connection n key secret cf).

Definition get_bucket (conn : handle) (name : string) : M handle :=
  library_call (GetBucket name) (fun n => Bucket n conn name).

End boto.

Module cx_Oracle.

Definition makedsn (host port sid : value) : dsn := Dsn host port sid.

Definition connect (user passwd : value) (d : dsn) : M handle :=
  library_call (OracleConnect user passwd d)
               (fun n => OracleConnection n user passwd d).

Definition cursor (conn : handle) : M handle :=
  library_call OpenCursor (fun n => OracleCursor n conn).

End cx_Oracle.

Module sqlalchemy.

Definition create_engine (uri : string) : M handle :=
  library_call (CreateEngine uri) (fun n => Engine n uri).

End sqlalchemy.

(* ================================================================== *)
(** ** Python expressions used by the module *)
(* ================================================================== *)

(** An expression list: one expression without a trailing comma is that
    expression, anything else is a tuple of the expressions. *)
Definition expression_list (items : list value) (trailing_comma : bool) : value :=
  match items, trailing_comma with
  | [x], false => x
  | _, _ => VTuple items
  end.

(** [a, b = v] *)
Definition unpack2 (v : value) : M (value * value) :=
  match v with
  | VTuple [a; b] => ret (a, b)
  | VTuple _ => raise ValueError
  | _ => raise TypeError
  end.

(** [a, b, c, d, e = v] *)
Definition unpack5 (v : value)
  : M (value * value * value * value * value) :=
  match v with
  | VTuple [a; b; c; d; e] => ret (a, b, c, d, e)
  | VTuple _ => raise ValueError
  | _ => raise TypeError
  end.

(** [sep.join(items)]: every item has to be a [str]. *)
Fixpoint str_join (sep : string) (items : list value) : result string :=
  match items with
  | [] => Ok ""
  | [VStr s] => Ok s
  | VStr s :: rest =>
      match str_join sep rest with
      | Ok r => Ok (s ++ sep ++ r)
      | Raise e => Raise e
      end
  | _ => Raise TypeError
  end.

(** [s + v] for a [str] on the left. *)
Definition str_add (s : string) (v : value) : result string :=
  match v with
  | VStr t => Ok (s ++ t)
  | _ => Raise TypeError
  end.

(* ================================================================== *)
(** ** fetch_creds.py *)
(* ================================================================== *)

Definition return_aws_keys (creds_path : string) : M value :=
  df <- Pandas.read_csv creds_path ;;
  aws_access_key_id <- Pandas.cell0 df "ACCESS_KEY_ID" ;;
  aws_secret_access_key <- Pandas.cell0 df "SECRET_ACCESS_KEY" ;;
  ret (expression_list [aws_access_key_id; aws_secret_access_key] true).

Definition return_rds_vars (creds_path : string) : M value :=
  df <- Pandas.read_csv creds_path ;;
  db_user <- Pandas.cell0 df "DB_USER" ;;
  db_passwd <- Pandas.cell0 df "DB_PASSWD" ;;
  db_host <- Pandas.cell0 df "DB_HOST" ;;
  db_port <- Pandas.cell0 df "DB_PORT" ;;
  db_sid <- Pandas.cell0 df "DB_SID" ;;
  ret (expression_list [db_user; db_passwd; db_host; db_port; db_sid] false).

Definition return_bucket (creds_path bucket_name : string) : M handle :=
  keys <- return_aws_keys creds_path ;;
  ks <- unpack2 keys ;;
  let '(aws_access_key_id, aws_secret_access_key) := ks in
  let cf := OrdinaryCallingFormat in
  s3_conn <- boto.connect_s3 aws_access_key_id aws_secret_access_key cf ;;
  bucket <- boto.get_bucket s3_conn bucket_name ;;
  ret bucket.

Definition return_cursor (creds_path : string) : M handle :=
  vars <- return_rds_vars creds_path ;;
  vs <- unpack5 vars ;;
  let '(user, passwd, host, port, sid) := vs in
  let dsn := cx_Oracle.makedsn host port sid in
  conn <- cx_Oracle.connect user passwd dsn ;;
  cursor <- cx_Oracle.cursor conn ;;
  ret cursor.

(** The expression assigned to [engine_str] in [sql_alchemy_engine]; [+]
    associates to the left. *)
Definition engine_str_of (user passwd host sid : value) : result string :=
  match str_join ":" [user; passwd] with
  | Raise e => Raise e
  | Ok up =>
      match str_add (("oracle+cx_oracle://" ++ up) ++ "@") host with
      | Raise e => Raise e
      | Ok s => str_add (s ++ "/") sid
      end
  end.

(** The statements of [sql_alchemy_engine], indentation aside.  In the
    source they stand at three columns under a docstring at four, which
    Python does not accept: the function as the source has it is
    [sql_alchemy_engine_as_written] below. *)
Definition sql_alchemy_engine (creds_path : string) : M handle :=
  vars <- return_rds_vars creds_path ;;
  vs <- unpack5 vars ;;
  let '(user, passwd, host, port, sid) := vs in
  engine_str <- lift (engine_str_of user passwd host sid) ;;
  engine <- sqlalchemy.create_engine engine_str ;;
  ret engine.

(* ================================================================== *)
(** ** What a call of an extractor amounts to *)
(* ================================================================== *)

Definition aws_columns : list string :=
  ["ACCESS_KEY_ID"; "SECRET_ACCESS_KEY"].

Definition rds_columns : list string :=
  ["DB_USER"; "DB_PASSWD"; "DB_HOST"; "DB_PORT"; "DB_SID"].

(** [df[label][0]] as a value. *)
Definition cell (df : Pandas.DataFrame) (label : string) : result value :=
  match Pandas.getitem df label with
  | Ok s => Pandas.first s
  | Raise e => Raise e
  end.

(** The lookups of an extractor, in statement order; the first failure
    ends them. *)
Fixpoint first_cells (df : Pandas.DataFrame) (labels : list string)
  : result (list value) :=
  match labels with
  | [] => Ok []
  | l :: ls =>
      match cell df l with
      | Raise e => Raise e
      | Ok v =>
          match first_cells df ls with
          | Raise e => Raise e
          | Ok vs => Ok (v :: vs)
          end
      end
  end.

Definition load (w : world) (path : string) : result Pandas.DataFrame :=
  match files w path with
  | None => Raise IOError
  | Some text => Pandas.parse text
  end.

Definition extract (labels : list string) (w : world) (path : string)
  : result value :=
  match load w path with
  | Raise e => Raise e
  | Ok df =>
      match first_cells df labels with
      | Raise e => Raise e
      | Ok vs => Ok (VTuple vs)
      end
  end.

(** The continuation of [return_bucket] after the keys are there. *)
Definition bucket_steps (bucket_name : string) (keys : value) : M handle :=
  ks <- unpack2 keys ;;
  let '(aws_access_key_id, aws_secret_access_key) := ks in
  s3_conn <- boto.connect_s3 aws_access_key_id aws_secret_access_key
                             OrdinaryCallingFormat ;;
  bucket <- boto.get_bucket s3_conn bucket_name ;;
  ret bucket.

Definition cursor_steps (vars : value) : M handle :=
  vs <- unpack5 vars ;;
  let '(user, passwd, host, port, sid) := vs in
  conn <- cx_Oracle.connect user passwd (cx_Oracle.makedsn host port sid) ;;
  cursor <- cx_Oracle.cursor conn ;;
  ret cursor.

Definition engine_steps (vars : value) : M handle :=
  vs <- unpack5 vars ;;
  let '(user, passwd, host, port, sid) := vs in
  uri <- lift (engine_str_of user passwd host sid) ;;
  engine <- sqlalchemy.create_engine uri ;;
  ret engine.

(** The position of the first column with a label. *)
Fixpoint index_of (label : string) (header : list string) : option nat :=
  match header with
  | [] => None
  | l :: ls =>
      if l =? label then Some 0
      else option_map S (index_of label ls)
  end.


(** The file reads as a table: it is a file the model covers, with a
    header and data rows, none of them longer than the header. *)
Definition reads_as (text : string) (header : list string)
           (rows : list (list string)) : Prop :=
  Pandas.covered text = true /\
  Pandas.tokenize text = header :: rows /\
  existsb (Pandas.too_long header) rows = false.

(** The characters the literals of pandas are written with: those of the
    missing-value markers, of numbers, of [inf] and [Infinity] and of
    [true] and [false], letters in either case. *)
Definition literal_char (c : ascii) : bool :=
  existsb (Ascii.eqb (Pandas.lower c))
          (list_ascii_of_string "0123456789+-.#/<> adefilnoqrstuy")
  || Ascii.eqb c "009"%char.

Fixpoint all_literal (s : string) : bool :=
  match s with
  | EmptyString => true
  | String c s' => literal_char c && all_literal s'
  end.

(** A field that is plain text to pandas whatever else is in its column:
    it has a character that no missing-value marker, number or boolean is
    written with. *)
Definition is_text (c : string) : bool := negb (all_literal c).

(** The extractors as the specification words them: the fields of the
    first data row under the required labels, as the strings they are, in
    the order of the labels. *)
Fixpoint literal_cells (header row : list string) (labels : list string)
  : result (list value) :=
  match labels with
  | [] => Ok []
  | l :: ls =>
      match index_of l header with
      | None => Raise (KeyError (VStr l))
      | Some i =>
          match literal_cells header row ls with
          | Raise e => Raise e
          | Ok vs => Ok (VStr (nth i row "") :: vs)
          end
      end
  end.

Definition literal_first_row (header row : list string) (labels : list string)
  : result value :=
  match literal_cells header row labels with
  | Raise e => Raise e
  | Ok vs => Ok (VTuple vs)
  end.

(** How many library calls a world has seen. *)
Definition network_calls (w : world) : list action :=
  filter is_network (log w).

(** A computation fails with [e] without a call into a client library. *)
Definition fails_offline {A} (m : M A) (e : exn) (w : world) : Prop :=
  fst (m w) = Raise e /\ network_calls (snd (m w)) = network_calls w.

(** Sample worlds: one credentials file on disk, every library call
    accepted, nothing done yet. *)
Definition disk (path text : string) : string -> option string :=
  fun p => if p =? path then Some text else None.

Definition no_files : string -> option string := fun _ => None.

Definition accepting : action -> option exn := fun _ => None.

Definition initial (fs : string -> option string) : world :=
  World fs accepting [] 0.

(** The text of a file from its lines. *)
Fixpoint csv (lines : list string) : string :=
  match lines with
  | [] => ""
  | l :: ls => l ++ String Pandas.newline (csv ls)
  end.

(** The indentation check of the Python tokenizer on the logical lines of
    a file: a deeper line opens a block, a shallower one has to return to
    the indentation of a block that is still open. *)
Fixpoint dedent (stack : list nat) (n : nat) : option (list nat) :=
  match stack with
  | [] => None
  | top :: rest =>
      if Nat.eqb n top then Some stack
      else if Nat.ltb top n then None
      else dedent rest n
  end.

Definition indent_line (stack : list nat) (n : nat) : option (list nat) :=
  match stack with
  | [] => None
  | top :: _ => if Nat.ltb top n then Some (n :: stack) else dedent stack n
  end.

Fixpoint indent_lines (stack : list nat) (lines : list nat)
  : option (list nat) :=
  match lines with
  | [] => Some stack
  | n :: ns =>
      match indent_line stack n with
      | Some st => indent_lines st ns
      | None => None
      end
  end.

(** The indentation of the logical lines of [return_aws_keys] ([def],
    docstring, [import], three assignments and [return]) and of
    [sql_alchemy_engine] ([def], docstring, [import], two assignments,
    the call and [return]), comments and blank lines left out. *)
Definition return_aws_keys_layout : list nat := [0; 4; 4; 4; 4; 4; 4].

Definition sql_alchemy_engine_layout : list nat := [0; 4; 3; 3; 3; 3; 3].

(** A function definition as Python takes it: when the indentation check
    rejects its lines there is no function, and what stands for a call is
    the indentation error. *)
Definition defined_by {A} (layout : list nat) (body : M A) : M A :=
  match indent_lines [0] layout with
  | Some _ => body
  | None => raise IndentationError
  end.

(** [sql_alchemy_engine] with the indentation its lines have in the
    source. *)
Definition sql_alchemy_engine_as_written (creds_path : string) : M handle :=
  defined_by sql_alchemy_engine_layout (sql_alchemy_engine creds_path).





(** Sample credentials files, at the path [creds.csv]. *)
Definition on_disk (lines : list string) : world :=
  initial (disk "creds.csv" (csv lines)).

Definition rds_header : string := "DB_USER,DB_PASSWD,DB_HOST,DB_PORT,DB_SID".

Definition aws_header : string := "ACCESS_KEY_ID,SECRET_ACCESS_KEY".

(** What pandas makes of the field of the first data row in column [i]:
    the field converted to the type inferred for the whole column. *)
Definition first_row_value (row : list string) (rows : list (list string))
           (i : nat) : value :=
  Pandas.convert (Pandas.infer_dtype (Pandas.raw_column (row :: rows) i))
                 (nth i row "").

(** Every cell of column [i] is there and is an integer literal. *)
Definition int_column (rows : list (list string)) (i : nat) : Prop :=
  Forall (fun r => Pandas.is_na (nth i r "") = false /\
                   Pandas.is_some (Pandas.int_literal (nth i r "")) = true)
         rows.

(* ================================================================== *)
(** ** Properties *)
(* ================================================================== *)

Local Open Scope list_scope.

(* ================================================================== *)
(** ** Properties *)
(* ================================================================== *)

Local Open Scope list_scope.

Lemma return_aws_keys_run (path : string) (w : world) :
  return_aws_keys path w
  = (extract aws_columns w path, record (ReadCsv path) w).
Proof.
  unfold return_aws_keys, extract, load, bind, Pandas.read_csv.
  destruct (files w path) as [text|]; [|reflexivity].
  destruct (Pandas.parse text) as [df|e]; [|reflexivity].
  unfold Pandas.cell0, lift, aws_columns, first_cells, cell.
  destruct (Pandas.getitem df "ACCESS_KEY_ID") as [s1|e1]; [|reflexivity].
  destruct (Pandas.first s1) as [v1|e1]; [|reflexivity].
  destruct (Pandas.getitem df "SECRET_ACCESS_KEY") as [s2|e2]; [|reflexivity].
  destruct (Pandas.first s2) as [v2|e2]; reflexivity.
Qed.

Lemma return_rds_vars_run (path : string) (w : world) :
  return_rds_vars path w
  = (extract rds_columns w path, record (ReadCsv path) w).
Proof.
  unfold return_rds_vars, extract, load, bind, Pandas.read_csv.
  destruct (files w path) as [text|]; [|reflexivity].
  destruct (Pandas.parse text) as [df|e]; [|reflexivity].
  unfold Pandas.cell0, lift, rds_columns, first_cells, cell.
  destruct (Pandas.getitem df "DB_USER") as [s1|e1]; [|reflexivity].
  destruct (Pandas.first s1) as [v1|e1]; [|reflexivity].
  destruct (Pandas.getitem df "DB_PASSWD") as [s2|e2]; [|reflexivity].
  destruct (Pandas.first s2) as [v2|e2]; [|reflexivity].
  destruct (Pandas.getitem df "DB_HOST") as [s3|e3]; [|reflexivity].
  destruct (Pandas.first s3) as [v3|e3]; [|reflexivity].
  destruct (Pandas.getitem df "DB_PORT") as [s4|e4]; [|reflexivity].
  destruct (Pandas.first s4) as [v4|e4]; [|reflexivity].
  destruct (Pandas.getitem df "DB_SID") as [s5|e5]; [|reflexivity].
  destruct (Pandas.first s5) as [v5|e5]; reflexivity.
Qed.

Lemma first_cells_length (df : Pandas.DataFrame) (labels : list string)
      (vs : list value) :
  first_cells df labels = Ok vs -> length vs = length labels.
Proof.
  revert vs; induction labels as [|l ls IH]; intros vs H; simpl in H.
  - injection H as <-. reflexivity.
  - destruct (cell df l) as [v|e]; [|discriminate].
    destruct (first_cells df ls) as [vs'|e]; [|discriminate].
    injection H as <-. simpl. f_equal. apply IH. reflexivity.
Qed.

Lemma extract_tuple (labels : list string) (w : world) (path : string)
      (v : value) :
  extract labels w path = Ok v ->
  exists vs, v = VTuple vs /\ length vs = length labels.
Proof.
  unfold extract. destruct (load w path) as [df|e]; [|discriminate].
  destruct (first_cells df labels) as [vs|e] eqn:E; [|discriminate].
  intros H; injection H as <-. exists vs. split; [reflexivity|].
  eapply first_cells_length; eassumption.
Qed.

Lemma return_bucket_run (path name : string) (w : world) :
  return_bucket path name w
  = match extract aws_columns w path with
    | Ok keys => bucket_steps name keys (record (ReadCsv path) w)
    | Raise e => (Raise e, record (ReadCsv path) w)
    end.
Proof.
  unfold return_bucket, bind at 1. rewrite return_aws_keys_run.
  destruct (extract aws_columns w path); reflexivity.
Qed.

Lemma return_cursor_run (path : string) (w : world) :
  return_cursor path w
  = match extract rds_columns w path with
    | Ok vars => cursor_steps vars (record (ReadCsv path) w)
    | Raise e => (Raise e, record (ReadCsv path) w)
    end.
Proof.
  unfold return_cursor, bind at 1. rewrite return_rds_vars_run.
  destruct (extract rds_columns w path); reflexivity.
Qed.

Lemma sql_alchemy_engine_run (path : string) (w : world) :
  sql_alchemy_engine path w
  = match extract rds_columns w path with
    | Ok vars => engine_steps vars (record (ReadCsv path) w)
    | Raise e => (Raise e, record (ReadCsv path) w)
    end.
Proof.
  unfold sql_alchemy_engine, bind at 1. rewrite return_rds_vars_run.
  destruct (extract rds_columns w path); reflexivity.
Qed.

Lemma record_network_calls (path : string) (w : world) :
  network_calls (record (ReadCsv path) w) = network_calls w.
Proof.
  unfold network_calls, record; simpl.
  rewrite filter_app; simpl. apply app_nil_r.
Qed.

Lemma extract_unreadable (labels : list string) (w : world) (path : string) :
  files w path = None -> extract labels w path = Raise IOError.
Proof. intros H. unfold extract, load. rewrite H. reflexivity. Qed.

(** The function as the source has it: every call ends in the
    indentation error and nothing is read or called. *)
Lemma sql_alchemy_engine_as_written_run (path : string) (w : world) :
  sql_alchemy_engine_as_written path w = (Raise IndentationError, w).
Proof. reflexivity. Qed.

(** C4: a path that is no readable file makes the two extractors and the
    bucket and cursor resolvers fail with the file-access error, and no
    call into a client library has been made when they do.  The engine
    resolver, with the indentation its lines have in the source, fails
    with the indentation error instead, which is no file-access error;
    it calls no library either. *)
Theorem unreadable_path_fails (path bucket_name : string) (w : world) :
  files w path = None ->
  fails_offline (return_aws_keys path) IOError w /\
  fails_offline (return_rds_vars path) IOError w /\
  fails_offline (return_bucket path bucket_name) IOError w /\
  fails_offline (return_cursor path) IOError w /\
  fails_offline (sql_alchemy_engine_as_written path) IndentationError w /\
  fst (sql_alchemy_engine_as_written path w) <> Raise IOError.
Proof.
  intros H. unfold fails_offline.
  rewrite return_aws_keys_run, return_rds_vars_run, return_bucket_run,
    return_cursor_run, sql_alchemy_engine_as_written_run.
  rewrite !(extract_unreadable _ _ _ H). simpl.
  rewrite record_network_calls. repeat split; try reflexivity.
  intros E. discriminate E.
Qed.

Lemma unreadable_path_fails_witness :
  files (initial no_files) "creds.csv" = None /\
  fails_offline (return_bucket "creds.csv" "data") IOError (initial no_files) /\
  fst (sql_alchemy_engine_as_written "creds.csv" (initial no_files))
  <> Raise IOError.
Proof.
  split; [reflexivity|].
  destruct (unreadable_path_fails "creds.csv" "data" (initial no_files)
              eq_refl) as (_ & _ & H & _ & _ & E).
  split; [exact H|exact E].
Defined.

(** *** The calls a resolver makes once the credentials are there *)

Ltac log_cases :=
  simpl;
  first
    [ exists []; rewrite app_nil_r; split; reflexivity
    | eexists; split; [rewrite <- ?app_assoc; simpl; reflexivity | reflexivity] ].

Lemma bucket_steps_log (name : string) (keys : value) (w : world) :
  exists acts,
    log (snd (bucket_steps name keys w)) = log w ++ acts /\
    forallb is_network acts = true.
Proof.
  unfold bucket_steps, bind, unpack2, ret, raise, boto.connect_s3,
    boto.get_bucket, library_call.
  destruct keys as [| | | | |[|a [|s [|x l]]]]; try log_cases.
  destruct (service w (ConnectS3 a s OrdinaryCallingFormat)); [log_cases|].
  simpl. destruct (service w (GetBucket name)); log_cases.
Qed.

Lemma cursor_steps_log (vars : value) (w : world) :
  exists acts,
    log (snd (cursor_steps vars w)) = log w ++ acts /\
    forallb is_network acts = true.
Proof.
  unfold cursor_steps, bind, unpack5, ret, raise, cx_Oracle.connect,
    cx_Oracle.cursor, library_call.
  destruct vars as [| | | | |[|u [|p [|h [|q [|s [|x l]]]]]]]; try log_cases.
  destruct (service w _); [log_cases|].
  simpl. destruct (service w OpenCursor); log_cases.
Qed.

Lemma read_then (w : world) (path : string) (w' : world) :
  (exists acts, log w' = log (record (ReadCsv path) w) ++ acts /\
                forallb is_network acts = true) ->
  exists acts, log w' = log w ++ ReadCsv path :: acts /\
               forallb is_network acts = true.
Proof.
  intros [acts [H1 H2]]. exists acts. split; [|exact H2].
  rewrite H1. simpl. rewrite <- app_assoc. reflexivity.
Qed.

Lemma read_only (w : world) (path : string) :
  exists acts, log (record (ReadCsv path) w) = log w ++ ReadCsv path :: acts /\
               forallb is_network acts = true.
Proof. exists []. split; reflexivity. Qed.

(** C5: in a run of a resolver the credentials are extracted first: the
    read of the file is the first thing the bucket and the cursor
    resolver do and every call into a client library comes after it, and
    when the extraction fails the resolver fails with the same error
    without any such call.  The engine resolver, as the source has it,
    never gets to a library call at all. *)
Theorem parse_then_connect (path bucket_name : string) (w : world) :
  (forall e, fst (return_aws_keys path w) = Raise e ->
             fails_offline (return_bucket path bucket_name) e w) /\
  (forall e, fst (return_rds_vars path w) = Raise e ->
             fails_offline (return_cursor path) e w) /\
  (exists acts,
      log (snd (return_bucket path bucket_name w))
      = log w ++ ReadCsv path :: acts /\ forallb is_network acts = true) /\
  (exists acts,
      log (snd (return_cursor path w))
      = log w ++ ReadCsv path :: acts /\ forallb is_network acts = true) /\
  network_calls (snd (sql_alchemy_engine_as_written path w)) = network_calls w.
Proof.
  unfold fails_offline.
  rewrite return_aws_keys_run, return_rds_vars_run, return_bucket_run,
    return_cursor_run, sql_alchemy_engine_as_written_run. simpl.
  repeat split.
  - rewrite H. reflexivity.
  - rewrite H. apply record_network_calls.
  - rewrite H. reflexivity.
  - rewrite H. apply record_network_calls.
  - destruct (extract aws_columns w path) as [keys|e];
      [apply read_then, bucket_steps_log | apply read_only].
  - destruct (extract rds_columns w path) as [vars|e];
      [apply read_then, cursor_steps_log | apply read_only].
Qed.

(** A file without the key columns: the extraction fails, the bucket
    resolver fails with it and has called nothing. *)
Lemma parse_then_connect_witness :
  fst (return_aws_keys "creds.csv" (on_disk ["user,password"; "scott,tiger"]))
  = Raise (KeyError (VStr "ACCESS_KEY_ID")) /\
  fails_offline (return_bucket "creds.csv" "data")
    (KeyError (VStr "ACCESS_KEY_ID"))
    (on_disk ["user,password"; "scott,tiger"]).
Proof.
  split; [reflexivity|].
  apply (parse_then_connect "creds.csv" "data"
           (on_disk ["user,password"; "scott,tiger"])).
  reflexivity.
Defined.

(** *** Looking a label up in a frame read from a file *)

Lemma index_of_none (label : string) (header : list string) :
  index_of label header = None <-> ~ In label header.
Proof.
  induction header as [|l ls IH]; simpl.
  - split; [intros _ []|reflexivity].
  - destruct (String.eqb_spec l label) as [->|Hne].
    + split; [discriminate|]. intros H. exfalso. apply H. left. reflexivity.
    + destruct (index_of label ls) as [i|]; simpl.
      * split; [discriminate|]. intros H. exfalso. apply H. right.
        apply Decidable.not_not; [|intros Hn; apply IH in Hn; discriminate].
        destruct (in_dec string_dec label ls); [left|right]; assumption.
      * split; [|reflexivity]. intros _ [H|H]; [exact (Hne H)|].
        destruct IH as [IH _]. exact (IH eq_refl H).
Qed.

Lemma index_of_some (label : string) (header : list string) (i : nat) :
  index_of label header = Some i -> nth_error header i = Some label.
Proof.
  revert i; induction header as [|l ls IH]; simpl; intros i H; [discriminate|].
  destruct (String.eqb_spec l label) as [->|Hne].
  - injection H as <-. reflexivity.
  - destruct (index_of label ls) as [j|]; [|discriminate].
    injection H as <-. simpl. apply IH. reflexivity.
Qed.

Lemma getitem_columns (rows : list (list string)) (header : list string)
      (k : nat) (label : string) :
  Pandas.getitem
    (map (fun il => (snd il,
                     Pandas.convert_column (Pandas.raw_column rows (fst il))))
         (combine (seq k (length header)) header)) label
  = match index_of label header with
    | Some i => Ok (Pandas.convert_column (Pandas.raw_column rows (k + i)))
    | None => Raise (KeyError (VStr label))
    end.
Proof.
  revert k; induction header as [|l ls IH]; intros k; simpl; [reflexivity|].
  destruct (l =? label).
  - rewrite Nat.add_0_r. reflexivity.
  - rewrite IH. destruct (index_of label ls) as [i|]; simpl; [|reflexivity].
    rewrite Nat.add_succ_r. reflexivity.
Qed.

Lemma cell_frame_of (header : list string) (rows : list (list string))
      (label : string) :
  cell (Pandas.frame_of header rows) label
  = match index_of label header with
    | None => Raise (KeyError (VStr label))
    | Some i =>
        match rows with
        | [] => Raise (KeyError (VInt 0))
        | r :: _ =>
            Ok (Pandas.convert (Pandas.infer_dtype (Pandas.raw_column rows i))
                               (nth i r ""%string))
        end
    end.
Proof.
  unfold cell, Pandas.frame_of. rewrite getitem_columns.
  destruct (index_of label header) as [i|]; [|reflexivity].
  destruct rows as [|r rs]; reflexivity.
Qed.

Lemma parse_reads_as (text : string) (header : list string)
      (rows : list (list string)) :
  reads_as text header rows ->
  Pandas.parse text = Ok (Pandas.frame_of header rows).
Proof.
  intros (_ & Ht & Hl). unfold Pandas.parse. rewrite Ht, Hl. reflexivity.
Qed.

Lemma extract_reads_as (labels : list string) (w : world) (path text : string)
      (header : list string) (rows : list (list string)) :
  files w path = Some text ->
  reads_as text header rows ->
  extract labels w path
  = match first_cells (Pandas.frame_of header rows) labels with
    | Raise e => Raise e
    | Ok vs => Ok (VTuple vs)
    end.
Proof.
  intros Hf Hr. unfold extract, load. rewrite Hf, (parse_reads_as _ _ _ Hr).
  reflexivity.
Qed.

Lemma index_of_in (label : string) (header : list string) :
  In label header -> exists i, index_of label header = Some i.
Proof.
  intros H. destruct (index_of label header) as [i|] eqn:E.
  - exists i. reflexivity.
  - apply index_of_none in E. contradiction.
Qed.

(** *** Plain text *)

Ltac ascii_cases c := destruct c as [[] [] [] [] [] [] [] []].

Lemma lit_space (c : ascii) :
  Pandas.is_space c = true -> literal_char c = true.
Proof.
  unfold Pandas.is_space. intros H. apply orb_true_iff in H.
  destruct H as [H|H]; apply Ascii.eqb_eq in H; subst; reflexivity.
Qed.

Lemma lit_digit (c : ascii) (d : Z) :
  Pandas.digit c = Some d -> literal_char c = true.
Proof.
  ascii_cases c; vm_compute; intros H; try discriminate H; reflexivity.
Qed.

Lemma lit_lower (c : ascii) : literal_char (Pandas.lower c) = literal_char c.
Proof. ascii_cases c; vm_compute; reflexivity. Qed.

Lemma all_literal_lowercase (s : string) :
  all_literal (Pandas.lowercase s) = all_literal s.
Proof.
  induction s as [|c s IH]; simpl; [reflexivity|].
  rewrite lit_lower, IH. reflexivity.
Qed.

Lemma all_literal_lstrip (s : string) :
  all_literal (Pandas.lstrip s) = true -> all_literal s = true.
Proof.
  induction s as [|c s IH]; simpl; [trivial|].
  destruct (Pandas.is_space c) eqn:E; [|trivial].
  intros H. rewrite (lit_space _ E), (IH H). reflexivity.
Qed.

Lemma rstrip_nil (s : string) :
  Pandas.rstrip s = ""%string -> all_literal s = true.
Proof.
  induction s as [|c s IH]; simpl; [trivial|].
  destruct (Pandas.rstrip s) as [|x r]; [|discriminate].
  destruct (Pandas.is_space c) eqn:E; [|discriminate].
  intros _. rewrite (lit_space _ E), (IH eq_refl). reflexivity.
Qed.

Lemma all_literal_rstrip (s : string) :
  all_literal (Pandas.rstrip s) = true -> all_literal s = true.
Proof.
  induction s as [|c s IH]; simpl; [trivial|].
  destruct (Pandas.rstrip s) as [|x r] eqn:E.
  - destruct (Pandas.is_space c) eqn:Ec; simpl; intros H.
    + rewrite (lit_space _ Ec), (rstrip_nil _ E). reflexivity.
    + apply andb_true_iff in H. destruct H as [H _].
      rewrite H, (rstrip_nil _ E). reflexivity.
  - intros H. change (literal_char c && all_literal (String x r) = true) in H.
    apply andb_true_iff in H. destruct H as [H1 H2].
    rewrite H1, (IH H2). reflexivity.
Qed.

Lemma all_literal_strip (s : string) :
  all_literal (Pandas.strip s) = true -> all_literal s = true.
Proof.
  unfold Pandas.strip. intros H.
  apply all_literal_lstrip, all_literal_rstrip, H.
Qed.

Lemma all_literal_drop_digits (s : string) :
  all_literal (Pandas.drop_digits s) = true -> all_literal s = true.
Proof.
  induction s as [|c s IH]; simpl; [trivial|].
  destruct (Pandas.digit c) as [d|] eqn:E; [|trivial].
  intros H. rewrite (lit_digit _ _ E), (IH H). reflexivity.
Qed.

Lemma all_literal_drop_sign (s : string) :
  all_literal (Pandas.drop_sign s) = true -> all_literal s = true.
Proof.
  destruct s as [|c s]; simpl; [trivial|].
  destruct (Ascii.eqb c "-"%char || Ascii.eqb c "+"%char) eqn:E; [|trivial].
  intros H. apply orb_true_iff in E.
  destruct E as [E|E]; apply Ascii.eqb_eq in E; subst; simpl; exact H.
Qed.

Lemma all_literal_digits_from (s : string) (acc z : Z) :
  Pandas.digits_from acc s = Some z -> all_literal s = true.
Proof.
  revert acc; induction s as [|c s IH]; intros acc; simpl; [trivial|].
  destruct (Pandas.digit c) as [d|] eqn:E; [|discriminate].
  intros H. rewrite (lit_digit _ _ E), (IH _ H). reflexivity.
Qed.

Lemma all_literal_integer (c : string) :
  Pandas.is_some (Pandas.integer_literal c) = true -> all_literal c = true.
Proof.
  unfold Pandas.integer_literal, Pandas.digits.
  destruct (Pandas.drop_sign (Pandas.strip c)) as [|x r] eqn:E;
    [discriminate|].
  destruct (Pandas.digits_from 0 (String x r)) as [z|] eqn:D; [|discriminate].
  intros _. apply all_literal_strip, all_literal_drop_sign.
  rewrite E. exact (all_literal_digits_from _ _ _ D).
Qed.

Lemma all_literal_decimal (c : string) :
  Pandas.decimal_literal c = true -> all_literal c = true.
Proof.
  unfold Pandas.decimal_literal. intros H.
  apply all_literal_strip, all_literal_drop_sign, all_literal_drop_digits.
  set (r1 := Pandas.drop_digits (Pandas.drop_sign (Pandas.strip c))) in *.
  destruct (Nat.eqb _ 0); [discriminate|].
  assert (T : forall r2,
             match r2 with
             | EmptyString => true
             | String e r =>
                 (Ascii.eqb e "e"%char || Ascii.eqb e "E"%char)
                 && negb (Nat.eqb (Pandas.count_digits (Pandas.drop_sign r)) 0)
                 && (Pandas.drop_digits (Pandas.drop_sign r) =? "")%string
             end = true -> all_literal r2 = true).
  { intros [|e r]; [trivial|]. intros G.
    apply andb_true_iff in G. destruct G as [G G3].
    apply andb_true_iff in G. destruct G as [G1 _].
    apply String.eqb_eq in G3.
    assert (L : all_literal r = true).
    { apply all_literal_drop_sign, all_literal_drop_digits.
      rewrite G3. reflexivity. }
    apply orb_true_iff in G1.
    destruct G1 as [G1|G1]; apply Ascii.eqb_eq in G1; subst; simpl; exact L. }
  destruct r1 as [|p r]; [reflexivity|].
  destruct (Ascii.eqb p "."%char) eqn:P.
  - apply Ascii.eqb_eq in P. subst p. simpl.
    apply all_literal_drop_digits, T, H.
  - apply T, H.
Qed.

Lemma all_literal_inf (c : string) :
  Pandas.inf_literal c = true -> all_literal c = true.
Proof.
  unfold Pandas.inf_literal. intros H.
  apply all_literal_drop_sign. rewrite <- all_literal_lowercase.
  apply orb_true_iff in H.
  destruct H as [H|H]; apply String.eqb_eq in H; rewrite H; reflexivity.
Qed.

Lemma all_literal_bool (c : string) :
  Pandas.is_some (Pandas.bool_literal c) = true -> all_literal c = true.
Proof.
  unfold Pandas.bool_literal. rewrite <- all_literal_lowercase.
  destruct (Pandas.lowercase c =? "true")%string eqn:T.
  - apply String.eqb_eq in T. rewrite T. reflexivity.
  - destruct (Pandas.lowercase c =? "false")%string eqn:F; [|discriminate].
    apply String.eqb_eq in F. rewrite F. reflexivity.
Qed.

Lemma all_literal_na (c : string) :
  Pandas.is_na c = true -> all_literal c = true.
Proof.
  unfold Pandas.is_na. intros H. apply existsb_exists in H.
  destruct H as [x [Hx E]]. apply String.eqb_eq in E. subst x.
  assert (A : forallb all_literal Pandas.na_values = true) by reflexivity.
  rewrite forallb_forall in A. exact (A c Hx).
Qed.

(** A field with a character that no literal is written with is none of
    the literals. *)
Lemma is_text_facts (c : string) :
  is_text c = true ->
  Pandas.is_na c = false /\
  Pandas.is_some (Pandas.integer_literal c) = false /\
  Pandas.float_literal c = false /\
  Pandas.is_some (Pandas.bool_literal c) = false.
Proof.
  unfold is_text. rewrite negb_true_iff. intros H.
  repeat split.
  - destruct (Pandas.is_na c) eqn:E; [|reflexivity].
    rewrite (all_literal_na _ E) in H. discriminate H.
  - destruct (Pandas.is_some (Pandas.integer_literal c)) eqn:E; [|reflexivity].
    rewrite (all_literal_integer _ E) in H. discriminate H.
  - unfold Pandas.float_literal.
    destruct (Pandas.decimal_literal c) eqn:E.
    + rewrite (all_literal_decimal _ E) in H. discriminate H.
    + destruct (Pandas.inf_literal c) eqn:I; [|reflexivity].
      rewrite (all_literal_inf _ I) in H. discriminate H.
  - destruct (Pandas.is_some (Pandas.bool_literal c)) eqn:E; [|reflexivity].
    rewrite (all_literal_bool _ E) in H. discriminate H.
Qed.

(** A plain-text field makes its column an object column, whatever the
    other cells of the column are, and is kept as it is. *)
Lemma convert_text (c : string) (cs : list string) :
  is_text c = true ->
  Pandas.convert (Pandas.infer_dtype (c :: cs)) c = VStr c.
Proof.
  intros H. destruct (is_text_facts c H) as (Hna & Hi & Hf & Hb).
  assert (Hi' : Pandas.is_some (Pandas.int_literal c) = false).
  { unfold Pandas.int_literal.
    destruct (Pandas.integer_literal c); [discriminate Hi|reflexivity]. }
  unfold Pandas.infer_dtype. cbn [filter]. rewrite Hna. cbn [negb forallb].
  rewrite Hi', Hi, Hf, Hb. cbn [andb]. unfold Pandas.convert. rewrite Hna.
  reflexivity.
Qed.



(** C8: [return_bucket] takes its key pair from [return_aws_keys], so it
    fails as that fails and the columns it reads are [ACCESS_KEY_ID] and
    [SECRET_ACCESS_KEY]; with the pair it opens the connection in the
    ordinary (path style) calling format and returns the bucket of the
    given name on that connection. *)
Theorem return_bucket_spec (path bucket_name : string) (w : world) :
  (forall e,
      fst (return_aws_keys path w) = Raise e ->
      fst (return_bucket path bucket_name w) = Raise e) /\
  (forall key secret,
      fst (return_aws_keys path w) = Ok (VTuple [key; secret]) ->
      service w (ConnectS3 key secret OrdinaryCallingFormat) = None ->
      service w (GetBucket bucket_name) = None ->
      return_bucket path bucket_name w
      = (Ok (Bucket (S (next_oid w))
                    (S3Connection (next_oid w) key secret OrdinaryCallingFormat)
                    bucket_name),
         World (files w) (service w)
               (log w ++ [ReadCsv path;
                          ConnectS3 key secret OrdinaryCallingFormat;
                          GetBucket bucket_name])
               (S (S (next_oid w))))) /\
  (forall text header rows,
      files w path = Some text ->
      reads_as text header rows ->
      ~ In "ACCESS_KEY_ID"%string header ->
      fst (return_bucket path bucket_name w)
      = Raise (KeyError (VStr "ACCESS_KEY_ID"))).
Proof.
  rewrite return_bucket_run, return_aws_keys_run. simpl.
  split; [|split].
  - intros e H. rewrite H. reflexivity.
  - intros key secret H Hc Hg. rewrite H.
    unfold bucket_steps, bind, unpack2, ret, boto.connect_s3,
      boto.get_bucket, library_call. simpl.
    rewrite Hc. simpl. rewrite Hg. simpl. rewrite <- !app_assoc. reflexivity.
  - intros text header rows Hf Hr Hn.
    rewrite (extract_reads_as _ _ _ _ _ _ Hf Hr).
    unfold aws_columns, first_cells. rewrite cell_frame_of.
    apply index_of_none in Hn. rewrite Hn. reflexivity.
Qed.

(** A file with the headers in the spelling of the docstring of
    [return_bucket] is refused, one with the upper-case headers gives the
    bucket. *)
Lemma return_bucket_spec_witness :
  fst (return_bucket "creds.csv" "data"
         (initial (disk "creds.csv"
                     (csv ["Access Key Id,Secret Access Key";
                           "AKIA_TEST,secretXYZ"]))))
  = Raise (KeyError (VStr "ACCESS_KEY_ID")) /\
  fst (return_bucket "creds.csv" "data"
         (initial (disk "creds.csv"
                     (csv ["ACCESS_KEY_ID,SECRET_ACCESS_KEY";
                           "AKIA_TEST,secretXYZ"]))))
  = Ok (Bucket 1 (S3Connection 0 (VStr "AKIA_TEST") (VStr "secretXYZ")
                               OrdinaryCallingFormat) "data").
Proof.
  split.
  - destruct (return_bucket_spec "creds.csv" "data"
                (initial (disk "creds.csv"
                            (csv ["Access Key Id,Secret Access Key";
                                  "AKIA_TEST,secretXYZ"]))))
      as (_ & _ & H).
    apply (H (csv ["Access Key Id,Secret Access Key"; "AKIA_TEST,secretXYZ"])
             ["Access Key Id"; "Secret Access Key"]%string
             [["AKIA_TEST"; "secretXYZ"]%string]).
    + reflexivity.
    + split; [reflexivity|split; reflexivity].
    + simpl. intros [H1|[H1|[]]]; discriminate.
  - destruct (return_bucket_spec "creds.csv" "data"
                (initial (disk "creds.csv"
                            (csv ["ACCESS_KEY_ID,SECRET_ACCESS_KEY";
                                  "AKIA_TEST,secretXYZ"]))))
      as (_ & H & _).
    rewrite (H (VStr "AKIA_TEST") (VStr "secretXYZ")); reflexivity.
Defined.

(** C10: [return_aws_keys] returns a pair and nothing more.  On a file
    that reads as a table with the two key columns and a data row it
    returns; whatever it returns is a tuple of exactly two components,
    which the two-target assignment of [return_bucket] unpacks, so the
    comma that ends the return statement adds nothing; and with plain-text
    keys the pair is the first-row field under [ACCESS_KEY_ID] followed by
    the one under [SECRET_ACCESS_KEY]. *)
Theorem return_aws_keys_is_pair (path : string) (w : world) :
  (forall text header row rows i j,
      files w path = Some text ->
      reads_as text header (row :: rows) ->
      index_of "ACCESS_KEY_ID" header = Some i ->
      index_of "SECRET_ACCESS_KEY" header = Some j ->
      is_text (nth i row ""%string) = true ->
      is_text (nth j row ""%string) = true ->
      fst (return_aws_keys path w)
      = Ok (VTuple [VStr (nth i row ""%string); VStr (nth j row ""%string)])) /\
  (forall text header row rows,
      files w path = Some text ->
      reads_as text header (row :: rows) ->
      In "ACCESS_KEY_ID"%string header ->
      In "SECRET_ACCESS_KEY"%string header ->
      exists key secret,
        fst (return_aws_keys path w) = Ok (VTuple [key; secret])) /\
  (forall v,
      fst (return_aws_keys path w) = Ok v ->
      exists key secret,
        v = VTuple [key; secret] /\
        v = expression_list [key; secret] false /\
        unpack2 v = ret (key, secret)).
Proof.
  rewrite return_aws_keys_run. cbn [fst]. split; [|split].
  - intros text header row rows i j Hf Hr Hi Hj Ti Tj.
    rewrite (extract_reads_as _ _ _ _ _ _ Hf Hr).
    unfold aws_columns, first_cells. rewrite !cell_frame_of, Hi, Hj.
    change (Pandas.raw_column (row :: rows) i)
      with (nth i row ""%string :: Pandas.raw_column rows i).
    change (Pandas.raw_column (row :: rows) j)
      with (nth j row ""%string :: Pandas.raw_column rows j).
    rewrite (convert_text _ _ Ti), (convert_text _ _ Tj). reflexivity.
  - intros text header row rows Hf Hr H1 H2.
    rewrite (extract_reads_as _ _ _ _ _ _ Hf Hr).
    unfold aws_columns, first_cells. rewrite !cell_frame_of.
    destruct (index_of_in _ _ H1) as [i ->].
    destruct (index_of_in _ _ H2) as [j ->].
    eexists. eexists. reflexivity.
  - intros v H.
    destruct (extract_tuple _ _ _ _ H) as [vs [-> Hlen]].
    destruct vs as [|key [|secret [|x l]]]; try discriminate.
    exists key, secret. repeat split.
Qed.

(** The key columns in the other order, behind a column of their own:
    the pair is still (id, secret). *)
Lemma return_aws_keys_is_pair_witness :
  fst (return_aws_keys "creds.csv"
         (on_disk ["owner,SECRET_ACCESS_KEY,ACCESS_KEY_ID";
                   "ops,secretXYZ,AKIA_TEST"]))
  = Ok (VTuple [VStr "AKIA_TEST"; VStr "secretXYZ"]).
Proof.
  destruct (return_aws_keys_is_pair "creds.csv"
              (on_disk ["owner,SECRET_ACCESS_KEY,ACCESS_KEY_ID";
                        "ops,secretXYZ,AKIA_TEST"])) as [H _].
  apply (H (csv ["owner,SECRET_ACCESS_KEY,ACCESS_KEY_ID";
                 "ops,secretXYZ,AKIA_TEST"])
           ["owner"; "SECRET_ACCESS_KEY"; "ACCESS_KEY_ID"]%string
           ["ops"; "secretXYZ"; "AKIA_TEST"]%string [] 2 1).
  - reflexivity.
  - split; [reflexivity|split; reflexivity].
  - reflexivity.
  - reflexivity.
  - reflexivity.
  - reflexivity.
Defined.

(** *** A required column that is not in the header *)








(** *** Numbers in the file *)

(** C1 at a file whose password is written [0042] and whose port is
    written [1521]: the two come back as the integers 42 and 1521, not as
    the strings of the file (the docstring of [return_rds_vars] promises
    strings). *)
Theorem numeric_cells_are_converted :
  fst (return_rds_vars "creds.csv"
         (on_disk [rds_header; "scott,0042,db.example.org,1521,ORCL"]))
  = Ok (VTuple [VStr "scott"; VInt 42; VStr "db.example.org"; VInt 1521;
                VStr "ORCL"]) /\
  literal_first_row
    ["DB_USER"; "DB_PASSWD"; "DB_HOST"; "DB_PORT"; "DB_SID"]%string
    ["scott"; "0042"; "db.example.org"; "1521"; "ORCL"]%string rds_columns
  = Ok (VTuple [VStr "scott"; VStr "0042"; VStr "db.example.org"; VStr "1521";
                VStr "ORCL"]).
Proof. split; reflexivity. Qed.

(** C7 at a file with the port [1521]: the port component of the result
    is the integer 1521. *)
Theorem numeric_port_is_an_integer :
  exists user passwd host sid,
    fst (return_rds_vars "creds.csv"
           (on_disk [rds_header; "scott,tiger,db.example.org,1521,ORCL"]))
    = Ok (VTuple [user; passwd; host; VInt 1521; sid]).
Proof. do 4 eexists. reflexivity. Qed.

(** *** The engine string *)

Lemma string_app_assoc (a b c : string) :
  ((a ++ b) ++ c = a ++ (b ++ c))%string.
Proof.
  induction a as [|x a IH]; simpl; [reflexivity|]. rewrite IH. reflexivity.
Qed.

Lemma engine_str_of_text (user passwd host sid : string) :
  engine_str_of (VStr user) (VStr passwd) (VStr host) (VStr sid)
  = Ok ("oracle+cx_oracle://" ++ user ++ ":" ++ passwd ++ "@" ++ host
          ++ "/" ++ sid)%string.
Proof.
  unfold engine_str_of, str_join, str_add.
  rewrite !string_app_assoc. reflexivity.
Qed.

(** With five strings in the file the engine is created from the string
    built of user, password, host and SID; the port takes no part. *)
Lemma sql_alchemy_engine_text (path : string) (w : world)
      (user passwd host sid : string) (port : value) :
  fst (return_rds_vars path w)
  = Ok (VTuple [VStr user; VStr passwd; VStr host; port; VStr sid]) ->
  exists uri,
    engine_str_of (VStr user) (VStr passwd) (VStr host) (VStr sid) = Ok uri /\
    log (snd (sql_alchemy_engine path w))
    = log w ++ [ReadCsv path; CreateEngine uri].
Proof.
  rewrite return_rds_vars_run, sql_alchemy_engine_run. cbn [fst].
  intros ->. eexists. split; [apply engine_str_of_text|].
  unfold engine_steps, bind, unpack5, ret, lift, sqlalchemy.create_engine,
    library_call.
  rewrite engine_str_of_text.
  destruct (service (record (ReadCsv path) w) _); simpl;
    rewrite <- app_assoc; reflexivity.
Qed.

(** C2 at a file whose password is written [123456]: the password comes
    back as an integer, joining it to the user name is a type error, and
    no engine is created. *)
Theorem numeric_password_breaks_engine :
  fst (return_rds_vars "creds.csv"
         (on_disk [rds_header; "scott,123456,db.example.org,1521,ORCL"]))
  = Ok (VTuple [VStr "scott"; VInt 123456; VStr "db.example.org"; VInt 1521;
                VStr "ORCL"]) /\
  fst (sql_alchemy_engine "creds.csv"
         (on_disk [rds_header; "scott,123456,db.example.org,1521,ORCL"]))
  = Raise TypeError /\
  log (snd (sql_alchemy_engine "creds.csv"
              (on_disk [rds_header; "scott,123456,db.example.org,1521,ORCL"])))
  = [ReadCsv "creds.csv"].
Proof. repeat split; reflexivity. Qed.

(** *** Rows after the first *)




(** *** One call after another *)








(** Two buckets resolved in a row from one file: two connections, two
    buckets, four objects. *)
Example two_buckets :
  fst (return_bucket "creds.csv" "data"
         (on_disk [aws_header; "AKIA_TEST,secretXYZ"]))
  = Ok (Bucket 1 (S3Connection 0 (VStr "AKIA_TEST") (VStr "secretXYZ")
                               OrdinaryCallingFormat) "data") /\
  fst (return_bucket "creds.csv" "data"
         (snd (return_bucket "creds.csv" "data"
                 (on_disk [aws_header; "AKIA_TEST,secretXYZ"]))))
  = Ok (Bucket 3 (S3Connection 2 (VStr "AKIA_TEST") (VStr "secretXYZ")
                               OrdinaryCallingFormat) "data").
Proof. split; reflexivity. Qed.

(** *** The layout of the source *)

(** The body of [return_aws_keys] passes the indentation check; that of
    [sql_alchemy_engine] does not: its first statement leaves the block
    opened by the docstring for an indentation no open block has. *)
Lemma sql_alchemy_engine_layout_rejected :
  indent_lines [0] return_aws_keys_layout = Some [4; 0] /\
  indent_lines [0] sql_alchemy_engine_layout = None.
Proof. split; reflexivity. Qed.

(* ================================================================== *)
(** ** Further properties of the extractors *)
(* ================================================================== *)

(** An extractor reads the file once and does nothing else: whatever the
    file is and however the call ends, the file read is the one action
    added to the log, no client library has been called, no object has
    been made and files and services are as before. *)
Theorem extractors_only_read (path : string) (w : world) :
  (log (snd (return_aws_keys path w)) = log w ++ [ReadCsv path] /\
   network_calls (snd (return_aws_keys path w)) = network_calls w /\
   next_oid (snd (return_aws_keys path w)) = next_oid w /\
   files (snd (return_aws_keys path w)) = files w /\
   service (snd (return_aws_keys path w)) = service w) /\
  (log (snd (return_rds_vars path w)) = log w ++ [ReadCsv path] /\
   network_calls (snd (return_rds_vars path w)) = network_calls w /\
   next_oid (snd (return_rds_vars path w)) = next_oid w /\
   files (snd (return_rds_vars path w)) = files w /\
   service (snd (return_rds_vars path w)) = service w).
Proof.
  rewrite return_aws_keys_run, return_rds_vars_run. cbn [snd].
  rewrite record_network_calls. repeat split; reflexivity.
Qed.

(** What [return_rds_vars] returns is a tuple of exactly five components,
    which the five-target assignments of [return_cursor] and
    [sql_alchemy_engine] unpack. *)
Theorem return_rds_vars_is_5_tuple (path : string) (w : world) (v : value) :
  fst (return_rds_vars path w) = Ok v ->
  exists user passwd host port sid,
    v = VTuple [user; passwd; host; port; sid] /\
    unpack5 v = ret (user, passwd, host, port, sid).
Proof.
  rewrite return_rds_vars_run. cbn [fst]. intros H.
  destruct (extract_tuple _ _ _ _ H) as [vs [-> Hlen]].
  destruct vs as [|a [|b [|c [|d [|e [|x l]]]]]]; try discriminate.
  exists a, b, c, d, e. split; reflexivity.
Qed.

Lemma return_rds_vars_is_5_tuple_witness :
  exists user passwd host port sid,
    VTuple [VStr "scott"; VStr "tiger"; VStr "db.example.org"; VInt 1521;
            VStr "ORCL"]
    = VTuple [user; passwd; host; port; sid] /\
    unpack5 (VTuple [VStr "scott"; VStr "tiger"; VStr "db.example.org";
                     VInt 1521; VStr "ORCL"])
    = ret (user, passwd, host, port, sid).
Proof.
  apply (return_rds_vars_is_5_tuple "creds.csv"
           (on_disk [rds_header; "scott,tiger,db.example.org,1521,ORCL"])).
  reflexivity.
Defined.

Lemma cell_first_row_value (header row : list string)
      (rows : list (list string)) (label : string) (i : nat) :
  index_of label header = Some i ->
  cell (Pandas.frame_of header (row :: rows)) label
  = Ok (first_row_value row rows i).
Proof. intros H. rewrite cell_frame_of, H. reflexivity. Qed.

Lemma filter_all {A} (p : A -> bool) (l : list A) :
  forallb p l = true -> filter p l = l.
Proof.
  induction l as [|x l IH]; simpl; [reflexivity|].
  intros H. apply andb_true_iff in H. destruct H as [Hx Hl].
  rewrite Hx, (IH Hl). reflexivity.
Qed.

Lemma int_column_dtype (rows : list (list string)) (i : nat) :
  int_column rows i ->
  Pandas.infer_dtype (Pandas.raw_column rows i) = Pandas.Int64.
Proof.
  intros H.
  assert (Hna : forallb (fun c => negb (Pandas.is_na c))
                        (Pandas.raw_column rows i) = true).
  { unfold Pandas.raw_column. rewrite forallb_forall. intros c Hc.
    apply in_map_iff in Hc. destruct Hc as [r [<- Hr]].
    unfold int_column in H. rewrite Forall_forall in H.
    destruct (H r Hr) as [H1 _]. rewrite H1. reflexivity. }
  assert (Hint : forallb (fun c => Pandas.is_some (Pandas.int_literal c))
                         (Pandas.raw_column rows i) = true).
  { unfold Pandas.raw_column. rewrite forallb_forall. intros c Hc.
    apply in_map_iff in Hc. destruct Hc as [r [<- Hr]].
    unfold int_column in H. rewrite Forall_forall in H.
    destruct (H r Hr) as [_ H2]. exact H2. }
  unfold Pandas.infer_dtype. rewrite (filter_all _ _ Hna), Hint, Nat.eqb_refl.
  reflexivity.
Qed.

Lemma first_row_value_int (row : list string) (rows : list (list string))
      (i : nat) (z : Z) :
  int_column (row :: rows) i ->
  Pandas.int_literal (nth i row ""%string) = Some z ->
  first_row_value row rows i = VInt z.
Proof.
  intros Hc Hz. unfold first_row_value. rewrite (int_column_dtype _ _ Hc).
  unfold Pandas.convert. inversion Hc as [|r rs [Hna _] _]; subst.
  rewrite Hna, Hz. reflexivity.
Qed.

(** A port column all of whose cells are integer literals is read as a
    column of integers: the port that [return_rds_vars] returns is then
    the number the first-row field denotes (sign, leading zeros and blanks
    around it gone), not the text of the field. *)
Theorem integer_port_column (path text : string) (w : world)
        (header row : list string) (rows : list (list string))
        (i1 i2 i3 i4 i5 : nat) (z : Z) :
  files w path = Some text ->
  reads_as text header (row :: rows) ->
  index_of "DB_USER" header = Some i1 ->
  index_of "DB_PASSWD" header = Some i2 ->
  index_of "DB_HOST" header = Some i3 ->
  index_of "DB_PORT" header = Some i4 ->
  index_of "DB_SID" header = Some i5 ->
  int_column (row :: rows) i4 ->
  Pandas.int_literal (nth i4 row ""%string) = Some z ->
  exists user passwd host sid,
    fst (return_rds_vars path w)
    = Ok (VTuple [user; passwd; host; VInt z; sid]).
Proof.
  intros Hf Hr H1 H2 H3 H4 H5 Hc Hz.
  rewrite return_rds_vars_run. cbn [fst].
  rewrite (extract_reads_as _ _ _ _ _ _ Hf Hr).
  unfold rds_columns, first_cells.
  rewrite (cell_first_row_value _ _ _ _ _ H1),
    (cell_first_row_value _ _ _ _ _ H2),
    (cell_first_row_value _ _ _ _ _ H3),
    (cell_first_row_value _ _ _ _ _ H4),
    (cell_first_row_value _ _ _ _ _ H5).
  rewrite (first_row_value_int _ _ _ _ Hc Hz).
  do 4 eexists. reflexivity.
Qed.

Lemma integer_port_column_witness :
  exists user passwd host sid,
    fst (return_rds_vars "creds.csv"
           (on_disk [rds_header; "scott,tiger,db.example.org, +01521,ORCL";
                     "amy,pw,db2.example.org,1522,XE"]))
    = Ok (VTuple [user; passwd; host; VInt 1521; sid]).
Proof.
  apply (integer_port_column "creds.csv"
           (csv [rds_header; "scott,tiger,db.example.org, +01521,ORCL";
                 "amy,pw,db2.example.org,1522,XE"])
           (on_disk [rds_header; "scott,tiger,db.example.org, +01521,ORCL";
                     "amy,pw,db2.example.org,1522,XE"])
           ["DB_USER"; "DB_PASSWD"; "DB_HOST"; "DB_PORT"; "DB_SID"]%string
           ["scott"; "tiger"; "db.example.org"; " +01521"; "ORCL"]%string
           [["amy"; "pw"; "db2.example.org"; "1522"; "XE"]%string]
           0 1 2 3 4 1521%Z); try reflexivity.
  - split; [reflexivity|split; reflexivity].
  - repeat constructor.
Defined.




(** A file with a header and no data row: an extractor whose first
    column is in the header fails with the key error of the row label 0,
    whether or not its other columns are there; one whose first column is
    not in the header fails with the key error of that column. *)
Theorem no_data_row (path text : string) (w : world) (header : list string) :
  files w path = Some text ->
  reads_as text header [] ->
  (In "ACCESS_KEY_ID"%string header ->
   fst (return_aws_keys path w) = Raise (KeyError (VInt 0))) /\
  (~ In "ACCESS_KEY_ID"%string header ->
   fst (return_aws_keys path w) = Raise (KeyError (VStr "ACCESS_KEY_ID"))) /\
  (In "DB_USER"%string header ->
   fst (return_rds_vars path w) = Raise (KeyError (VInt 0))) /\
  (~ In "DB_USER"%string header ->
   fst (return_rds_vars path w) = Raise (KeyError (VStr "DB_USER"))).
Proof.
  intros Hf Hr. rewrite return_aws_keys_run, return_rds_vars_run. cbn [fst].
  rewrite !(extract_reads_as _ _ _ _ _ _ Hf Hr).
  unfold aws_columns, rds_columns, first_cells. rewrite !cell_frame_of.
  repeat split; intros H.
  - destruct (index_of_in _ _ H) as [i ->]. reflexivity.
  - apply index_of_none in H. rewrite H. reflexivity.
  - destruct (index_of_in _ _ H) as [i ->]. reflexivity.
  - apply index_of_none in H. rewrite H. reflexivity.
Qed.

Lemma no_data_row_witness :
  fst (return_rds_vars "creds.csv" (on_disk [rds_header]))
  = Raise (KeyError (VInt 0)).
Proof.
  destruct (no_data_row "creds.csv" (csv [rds_header]) (on_disk [rds_header])
              ["DB_USER"; "DB_PASSWD"; "DB_HOST"; "DB_PORT"; "DB_SID"]%string
              eq_refl (conj eq_refl (conj eq_refl eq_refl)))
    as (_ & _ & H & _).
  apply H. left. reflexivity.
Defined.

Lemma extract_empty (labels : list string) (w : world) (path text : string) :
  files w path = Some text ->
  Pandas.tokenize text = [] ->
  extract labels w path = Raise EmptyDataError.
Proof.
  intros Hf Ht. unfold extract, load, Pandas.parse. rewrite Hf, Ht.
  reflexivity.
Qed.

(** A file of nothing but blank lines (or of nothing at all): the two
    extractors and the bucket and cursor resolvers fail with the
    empty-data error of the parser, and no client library has been called
    when they do. *)
Theorem empty_file_fails (path bucket_name text : string) (w : world) :
  files w path = Some text ->
  Pandas.covered text = true ->
  Pandas.tokenize text = [] ->
  fails_offline (return_aws_keys path) EmptyDataError w /\
  fails_offline (return_rds_vars path) EmptyDataError w /\
  fails_offline (return_bucket path bucket_name) EmptyDataError w /\
  fails_offline (return_cursor path) EmptyDataError w.
Proof.
  intros Hf _ Ht. unfold fails_offline.
  rewrite return_aws_keys_run, return_rds_vars_run, return_bucket_run,
    return_cursor_run.
  rewrite !(extract_empty _ _ _ _ Hf Ht). simpl.
  rewrite record_network_calls. repeat split; reflexivity.
Qed.

Lemma empty_file_fails_witness :
  fails_offline (return_cursor "creds.csv") EmptyDataError (on_disk [""; ""]).
Proof.
  apply (empty_file_fails "creds.csv" "data" (csv [""; ""]) (on_disk [""; ""]));
    reflexivity.
Defined.

(* ================================================================== *)
(** ** Further properties of the resolvers *)
(* ================================================================== *)

(** With the five values of [return_rds_vars], [return_cursor] connects
    as user and password to the descriptor made of host, port and SID, and
    returns a cursor opened on that connection; the values go to the
    driver as they came, whatever their types.  The calls are the file
    read, the connect and the cursor, in this order. *)
Theorem return_cursor_spec (path : string) (w : world)
        (user passwd host port sid : value) :
  fst (return_rds_vars path w) = Ok (VTuple [user; passwd; host; port; sid]) ->
  service w (OracleConnect user passwd (Dsn host port sid)) = None ->
  service w OpenCursor = None ->
  return_cursor path w
  = (Ok (OracleCursor (S (next_oid w))
           (OracleConnection (next_oid w) user passwd (Dsn host port sid))),
     World (files w) (service w)
           (log w ++ [ReadCsv path;
                      OracleConnect user passwd (Dsn host port sid);
                      OpenCursor])
           (S (S (next_oid w)))).
Proof.
  rewrite return_rds_vars_run, return_cursor_run. cbn [fst].
  intros -> Hc Ho.
  unfold cursor_steps, bind, unpack5, ret, cx_Oracle.connect,
    cx_Oracle.cursor, cx_Oracle.makedsn, library_call. simpl.
  rewrite Hc. simpl. rewrite Ho. simpl. rewrite <- !app_assoc. reflexivity.
Qed.

(** The port of the file comes back as an integer and is handed on as
    one. *)
Lemma return_cursor_spec_witness :
  fst (return_cursor "creds.csv"
         (on_disk [rds_header; "scott,tiger,db.example.org,1521,ORCL"]))
  = Ok (OracleCursor 1
          (OracleConnection 0 (VStr "scott") (VStr "tiger")
             (Dsn (VStr "db.example.org") (VInt 1521) (VStr "ORCL")))).
Proof.
  rewrite (return_cursor_spec "creds.csv"
             (on_disk [rds_header; "scott,tiger,db.example.org,1521,ORCL"])
             (VStr "scott") (VStr "tiger") (VStr "db.example.org")
             (VInt 1521) (VStr "ORCL")); reflexivity.
Defined.

(** When the database refuses the connection, [return_cursor] fails with
    the error of the driver and asks for no cursor; when the cursor is
    refused it fails with that error.  Nothing is caught or retried. *)
Theorem return_cursor_refused (path : string) (w : world)
        (user passwd host port sid : value) (e : exn) :
  fst (return_rds_vars path w) = Ok (VTuple [user; passwd; host; port; sid]) ->
  (service w (OracleConnect user passwd (Dsn host port sid)) = Some e ->
   fst (return_cursor path w) = Raise e /\
   log (snd (return_cursor path w))
   = log w ++ [ReadCsv path; OracleConnect user passwd (Dsn host port sid)]) /\
  (service w (OracleConnect user passwd (Dsn host port sid)) = None ->
   service w OpenCursor = Some e ->
   fst (return_cursor path w) = Raise e /\
   log (snd (return_cursor path w))
   = log w ++ [ReadCsv path; OracleConnect user passwd (Dsn host port sid);
               OpenCursor]).
Proof.
  rewrite return_rds_vars_run, return_cursor_run. cbn [fst].
  intros ->.
  unfold cursor_steps, bind, unpack5, ret, cx_Oracle.connect,
    cx_Oracle.cursor, cx_Oracle.makedsn, library_call. simpl.
  split.
  - intros Hc. rewrite Hc. simpl. rewrite <- !app_assoc. split; reflexivity.
  - intros Hc Ho. rewrite Hc. simpl. rewrite Ho. simpl.
    rewrite <- !app_assoc. split; reflexivity.
Qed.

(** A database that refuses every connection with error 1017. *)
Lemma return_cursor_refused_witness :
  fst (return_cursor "creds.csv"
         (World (disk "creds.csv"
                   (csv [rds_header; "scott,tiger,db.example.org,1521,ORCL"]))
                (fun a => match a with
                          | OracleConnect _ _ _ => Some (LibraryError 1017)
                          | _ => None
                          end) [] 0))
  = Raise (LibraryError 1017).
Proof.
  destruct (return_cursor_refused "creds.csv"
              (World (disk "creds.csv"
                        (csv [rds_header;
                              "scott,tiger,db.example.org,1521,ORCL"]))
                     (fun a => match a with
                               | OracleConnect _ _ _ => Some (LibraryError 1017)
                               | _ => None
                               end) [] 0)
              (VStr "scott") (VStr "tiger") (VStr "db.example.org")
              (VInt 1521) (VStr "ORCL") (LibraryError 1017) eq_refl)
    as [H _].
  apply H. reflexivity.
Defined.

(** When the storage service refuses the connection, [return_bucket]
    fails with the error of the client and never looks the bucket up; when
    the bucket lookup is refused it fails with that error. *)
Theorem return_bucket_refused (path bucket_name : string) (w : world)
        (key secret : value) (e : exn) :
  fst (return_aws_keys path w) = Ok (VTuple [key; secret]) ->
  (service w (ConnectS3 key secret OrdinaryCallingFormat) = Some e ->
   fst (return_bucket path bucket_name w) = Raise e /\
   log (snd (return_bucket path bucket_name w))
   = log w ++ [ReadCsv path; ConnectS3 key secret OrdinaryCallingFormat]) /\
  (service w (ConnectS3 key secret OrdinaryCallingFormat) = None ->
   service w (GetBucket bucket_name) = Some e ->
   fst (return_bucket path bucket_name w) = Raise e /\
   log (snd (return_bucket path bucket_name w))
   = log w ++ [ReadCsv path; ConnectS3 key secret OrdinaryCallingFormat;
               GetBucket bucket_name]).
Proof.
  rewrite return_aws_keys_run, return_bucket_run. cbn [fst].
  intros ->.
  unfold bucket_steps, bind, unpack2, ret, boto.connect_s3,
    boto.get_bucket, library_call. simpl.
  split.
  - intros Hc. rewrite Hc. simpl. rewrite <- !app_assoc. split; reflexivity.
  - intros Hc Hg. rewrite Hc. simpl. rewrite Hg. simpl.
    rewrite <- !app_assoc. split; reflexivity.
Qed.

(** A service that knows no bucket: error 404 from the lookup. *)
Lemma return_bucket_refused_witness :
  fst (return_bucket "creds.csv" "data"
         (World (disk "creds.csv" (csv [aws_header; "AKIA_TEST,secretXYZ"]))
                (fun a => match a with
                          | GetBucket _ => Some (LibraryError 404)
                          | _ => None
                          end) [] 0))
  = Raise (LibraryError 404).
Proof.
  destruct (return_bucket_refused "creds.csv" "data"
              (World (disk "creds.csv"
                        (csv [aws_header; "AKIA_TEST,secretXYZ"]))
                     (fun a => match a with
                               | GetBucket _ => Some (LibraryError 404)
                               | _ => None
                               end) [] 0)
              (VStr "AKIA_TEST") (VStr "secretXYZ") (LibraryError 404) eq_refl)
    as [_ H].
  apply H; reflexivity.
Defined.

(** Where the failures of the bucket and of the cursor resolver come
    from: either the extractor failed, and the resolver fails with the
    extractor's error, or the last call the resolver made was a call into
    the client library that the service refused, and the resolver fails
    with the error of that refusal.  Unpacking the extractor's tuple never
    fails. *)
Theorem resolver_errors (path bucket_name : string) (w : world) (e : exn) :
  (fst (return_bucket path bucket_name w) = Raise e ->
   fst (return_aws_keys path w) = Raise e \/
   exists acts a,
     log (snd (return_bucket path bucket_name w))
     = log w ++ ReadCsv path :: acts ++ [a] /\
     is_network a = true /\ service w a = Some e) /\
  (fst (return_cursor path w) = Raise e ->
   fst (return_rds_vars path w) = Raise e \/
   exists acts a,
     log (snd (return_cursor path w))
     = log w ++ ReadCsv path :: acts ++ [a] /\
     is_network a = true /\ service w a = Some e).
Proof.
  rewrite return_bucket_run, return_cursor_run,
    return_aws_keys_run, return_rds_vars_run. cbn [fst].
  split.
  - destruct (extract aws_columns w path) as [v|e0] eqn:E;
      [|intros H; left; simpl in H; injection H as <-; reflexivity].
    destruct (extract_tuple _ _ _ _ E) as [vs [-> Hlen]].
    destruct vs as [|a [|s [|x l]]]; try discriminate Hlen.
    unfold bucket_steps, bind, unpack2, ret, boto.connect_s3,
      boto.get_bucket, library_call. simpl.
    destruct (service w (ConnectS3 a s OrdinaryCallingFormat)) eqn:Hc; simpl.
    + intros H. injection H as <-. right.
      exists [], (ConnectS3 a s OrdinaryCallingFormat).
      split; [rewrite <- app_assoc; reflexivity|].
      split; [reflexivity|exact Hc].
    + destruct (service w (GetBucket bucket_name)) eqn:Hg; simpl;
        intros H; [|discriminate H].
      injection H as <-. right.
      exists [ConnectS3 a s OrdinaryCallingFormat], (GetBucket bucket_name).
      split; [rewrite <- !app_assoc; reflexivity|].
      split; [reflexivity|exact Hg].
  - destruct (extract rds_columns w path) as [v|e0] eqn:E;
      [|intros H; left; simpl in H; injection H as <-; reflexivity].
    destruct (extract_tuple _ _ _ _ E) as [vs [-> Hlen]].
    destruct vs as [|u [|p [|h [|q [|s [|x l]]]]]]; try discriminate Hlen.
    unfold cursor_steps, bind, unpack5, ret, cx_Oracle.connect,
      cx_Oracle.cursor, cx_Oracle.makedsn, library_call. simpl.
    destruct (service w (OracleConnect u p (Dsn h q s))) eqn:Hc; simpl.
    + intros H. injection H as <-. right.
      exists [], (OracleConnect u p (Dsn h q s)).
      split; [rewrite <- app_assoc; reflexivity|].
      split; [reflexivity|exact Hc].
    + destruct (service w OpenCursor) eqn:Ho; simpl;
        intros H; [|discriminate H].
      injection H as <-. right.
      exists [OracleConnect u p (Dsn h q s)], OpenCursor.
      split; [rewrite <- !app_assoc; reflexivity|].
      split; [reflexivity|exact Ho].
Qed.

(** A database that refuses every connection with error 1017: the
    failure of [return_cursor] is that refusal. *)
Lemma resolver_errors_witness :
  fst (return_rds_vars "creds.csv"
         (World (disk "creds.csv"
                   (csv [rds_header; "scott,tiger,db.example.org,1521,ORCL"]))
                (fun a => match a with
                          | OracleConnect _ _ _ => Some (LibraryError 1017)
                          | _ => None
                          end) [] 0))
  = Raise (LibraryError 1017) \/
  exists acts a,
    log (snd (return_cursor "creds.csv"
                (World (disk "creds.csv"
                          (csv [rds_header;
                                "scott,tiger,db.example.org,1521,ORCL"]))
                       (fun a => match a with
                                 | OracleConnect _ _ _ =>
                                     Some (LibraryError 1017)
                                 | _ => None
                                 end) [] 0)))
    = [] ++ ReadCsv "creds.csv" :: acts ++ [a] /\
    is_network a = true /\
    match a with
    | OracleConnect _ _ _ => Some (LibraryError 1017)
    | _ => None
    end = Some (LibraryError 1017).
Proof.
  destruct (resolver_errors "creds.csv" "data"
              (World (disk "creds.csv"
                        (csv [rds_header;
                              "scott,tiger,db.example.org,1521,ORCL"]))
                     (fun a => match a with
                               | OracleConnect _ _ _ => Some (LibraryError 1017)
                               | _ => None
                               end) [] 0)
              (LibraryError 1017)) as [_ H].
  apply H. reflexivity.
Defined.
